(** * Dimension-range descriptors of the GeoMet notebooks

    The two notebooks read a layer's dimension metadata and take a
    descriptor apart with one statement, used for both dimensions:

      oldest_fcast, newest_fcast, issue_interval =
        wms_auth[layer_name].dimensions['reference_time']['values'][0].split('/')

      first_datetime, last_datetime, datetime_interval =
        wms_auth[layer_name].dimensions['time']['values'][0].split('/')

    This file embeds that statement: Python's [str.split] with a one
    character separator, the unpacking of its result into three targets,
    the subscript [values[0]], the dictionary lookups in front of it and
    the binding of the three names in the notebook's namespace.

    Strings are sequences of bytes (the UTF-8 encoding of the Python text).
    The separator '/' is a single byte that never occurs inside a
    multi-byte UTF-8 sequence, so splitting the bytes at '/' and splitting
    the text at '/' cut at the same places.

    The cells around that statement are embedded as well: the loops that
    print the layer names and titles of a service, and the call of
    getCoverage that reads the names the two dimension cells have bound. *)

From Stdlib Require Import Ascii String List.
From stdpp Require Import base option list strings gmap.

Local Open Scope string_scope.

(** ** Python values the statement handles *)

Module Py.

(** The exceptions the statement can raise once the dictionary of
    dimensions is at hand ([cell_exn] below adds the ones of the steps in
    front of it).  [ValueError] is what the
    unpacking raises, with the two messages CPython has for it
    ("not enough values to unpack (expected n, got m)" and
    "too many values to unpack (expected n)"); [IndexError] is the
    subscript [[0]] on an empty list; [KeyError] is a dictionary lookup
    of an absent key. *)
Inductive unpack_failure : Type :=
| NotEnoughValues (expected got : nat)
| TooManyValues (expected : nat).

Inductive exn : Type :=
| ValueError (why : unpack_failure)
| IndexError
| KeyError (key : string).

(** [s.count(sep)] for a one character [sep]. *)
Fixpoint count (sep : ascii) (s : string) : nat :=
  match s with
  | EmptyString => 0
  | String c r => if Ascii.eqb c sep then S (count sep r) else count sep r
  end.

(** [s.split(sep)] for a one character [sep] and no [maxsplit]: the
    pieces between consecutive separators, empty pieces included, so
    that the empty string gives one empty piece. *)
Fixpoint split (sep : ascii) (s : string) : list string :=
  match s with
  | EmptyString => [EmptyString]
  | String c r =>
      if Ascii.eqb c sep then EmptyString :: split sep r
      else match split sep r with
           | piece :: pieces => String c piece :: pieces
           | [] => [String c EmptyString]
           end
  end.

(** [sep.join(pieces)]. *)
Fixpoint join (sep : string) (pieces : list string) : string :=
  match pieces with
  | [] => EmptyString
  | [p] => p
  | p :: ps => p +:+ sep +:+ join sep ps
  end.

(** [x, y, z = pieces]: the sequence must have exactly three items. *)
Definition unpack3 (pieces : list string) : exn + (string * string * string) :=
  match pieces with
  | [x; y; z] => inr (x, y, z)
  | _ :: _ :: _ :: _ :: _ => inl (ValueError (TooManyValues 3))
  | _ => inl (ValueError (NotEnoughValues 3 (length pieces)))
  end.

(** [values[0]] on a list. *)
Definition index0 (values : list string) : exn + string :=
  match values with
  | v :: _ => inr v
  | [] => inl IndexError
  end.

End Py.

(** ** The descriptor statement *)

Definition slash : ascii := "/"%char.

(** The right-hand side [.split('/')] followed by the three-target
    unpacking. *)
Definition parse (descriptor : string) : Py.exn + (string * string * string) :=
  Py.unpack3 (Py.split slash descriptor).

(** ** The notebook's namespace and the statement as it is executed

    A cell runs against the names bound so far.  An exception ends the
    cell; the names bound before it was raised stay bound.  [M A] is a
    computation that reads and updates the namespace and either raises or
    returns an [A]. *)

Definition M (A : Type) : Type :=
  gmap string string -> (Py.exn + A) * gmap string string.

Definition ret {A} (a : A) : M A := fun g => (inr a, g).

Definition raise {A} (e : Py.exn) : M A := fun g => (inl e, g).

Definition bind {A B} (m : M A) (k : A -> M B) : M B :=
  fun g =>
    match m g with
    | (inr a, g') => k a g'
    | (inl e, g') => (inl e, g')
    end.

(** Evaluation of an expression that touches no name. *)
Definition eval {A} (r : Py.exn + A) : M A :=
  match r with
  | inr a => ret a
  | inl e => raise e
  end.

(** [name = v] at the top level of a cell. *)
Definition store (name v : string) : M unit :=
  fun g => (inr tt, <[name := v]> g).

Declare Scope py_scope.
Delimit Scope py_scope with py.
Notation "x <- m ;; k" := (bind m (fun x => k))
  (at level 100, m at next level, right associativity) : py_scope.
Notation "m ;;; k" := (bind m (fun _ => k))
  (at level 100, right associativity) : py_scope.

(** [x, y, z = pieces]: the sequence is unpacked first, the three names
    are bound afterwards, left to right. *)
Definition unpack_assign (x y z : string) (pieces : list string) : M unit :=
  (t <- eval (Py.unpack3 pieces) ;;
   store x t.1.1 ;;; store y t.1.2 ;;; store z t.2)%py.

(** [x, y, z = descriptor.split('/')]. *)
Definition assign_split (x y z : string) (descriptor : string) : M unit :=
  unpack_assign x y z (Py.split slash descriptor).

(** One entry of [wms_auth[layer_name].dimensions] whose key ['values']
    holds a list of descriptors; its other keys ('units', 'default',
    'nearestValue', 'multipleValues') hold strings.  ([published_dimension]
    below is the entry as the client library builds it, where ['values']
    can also be [None].) *)
Record dimension : Type := {
  attributes : gmap string string;
  values : list string
}.

(** [dimensions[name]]. *)
Definition lookup_dimension (dimensions : gmap string dimension) (name : string)
  : Py.exn + dimension :=
  match dimensions !! name with
  | Some d => inr d
  | None => inl (Py.KeyError name)
  end.

(** [values[0].split('/')] unpacked into three: what both cells compute
    from a dimension's list of descriptors. *)
Definition resolve (vals : list string) : Py.exn + (string * string * string) :=
  match Py.index0 vals with
  | inr v => parse v
  | inl e => inl e
  end.

(** A cell from the point where [wms_auth[layer_name].dimensions] has
    been evaluated to a dictionary whose ['values'] entries are lists: the
    assignment, then the expression whose value the notebook displays.
    [layer_dimension_cell] below is the cell from its first name on. *)
Definition dimension_cell (name x y z : string)
    (dimensions : gmap string dimension) : M (list string) :=
  (d <- eval (lookup_dimension dimensions name) ;;
   v <- eval (Py.index0 (values d)) ;;
   assign_split x y z v ;;;
   d' <- eval (lookup_dimension dimensions name) ;;
   ret (values d'))%py.

Definition reference_time_cell : gmap string dimension -> M (list string) :=
  dimension_cell "reference_time" "oldest_fcast" "newest_fcast" "issue_interval".

Definition time_cell : gmap string dimension -> M (list string) :=
  dimension_cell "time" "first_datetime" "last_datetime" "datetime_interval".

(** The dimensions the notebook prints for its layer. *)
Definition demo_dimensions : gmap string dimension :=
  <["time" := {| attributes := <["units" := "ISO8601"]>
                                (<["default" := "2022-06-21T12:00:00Z"]>
                                (<["nearestValue" := "0"]> ∅));
                 values := ["2022-06-21T01:00:00Z/2022-06-27T00:00:00Z/PT1H"] |}]>
  (<["reference_time" := {| attributes := <["units" := "ISO8601"]>
                                (<["default" := "2022-06-21T00:00:00Z"]>
                                (<["multipleValues" := "1"]>
                                (<["nearestValue" := "0"]> ∅)));
                 values := ["2022-06-19T12:00:00Z/2022-06-21T00:00:00Z/PT12H"] |}]> ∅).

(** ** The spec's vocabulary over the statement *)

(** The spec's MalformedDescriptor condition is the [ValueError] the
    unpacking raises. *)
Definition MalformedDescriptor {A} (r : Py.exn + A) : Prop :=
  exists why, r = inl (Py.ValueError why).

(** The reason CPython gives when a sequence of [n] items is unpacked
    into three targets, [n] other than three. *)
Definition unpack_reason (n : nat) : Py.unpack_failure :=
  if (n <? 3)%nat then Py.NotEnoughValues 3 n else Py.TooManyValues 3.

(** Modelled from the spec: the DimensionRange entity of the data model.
    The notebooks declare no such type; they hold the same data as the
    descriptor [values[0]] and the three names bound from it. *)
Record DimensionRange : Type := {
  rawDescriptor : string;
  start : string;
  end_ : string;
  step : string
}.

(** A range is constructed from a descriptor by the statement's
    right-hand side. *)
Definition construct (descriptor : string) : Py.exn + DimensionRange :=
  match parse descriptor with
  | inr (a, b, c) =>
      inr {| rawDescriptor := descriptor; start := a; end_ := b; step := c |}
  | inl e => inl e
  end.

(** ** The layer listings

    Three cells print what a service offers:

      for key in list(wms.contents.keys())[0:20]:
          print(key)

      for key in list(wms.contents.keys())[0:20]:
          print(wms[key].title)

      for key in list(wms_auth.contents.keys()):
          print(key)

    [contents] is an ordered dictionary from layer names to metadata; it
    is held as the list of its items in insertion order. *)

(** One entry of [.dimensions] as the client library builds it: under
    ['values'] the list of the descriptors the service publishes for the
    dimension, or [None] when it publishes none. *)
Record published_dimension : Type := {
  published_attributes : gmap string string;
  published_values : option (list string)
}.

(** A layer's metadata as far as the notebooks read it: [.title], which
    is a string or [None], and [.dimensions]. *)
Record layer : Type := {
  title : option string;
  dimensions : gmap string published_dimension
}.

(** [contents.keys()], in insertion order. *)
Definition keys (contents : list (string * layer)) : list string :=
  map fst contents.

(** [contents[name]] on the items of the dictionary. *)
Fixpoint lookup_content (contents : list (string * layer)) (name : string)
  : option layer :=
  match contents with
  | [] => None
  | (k, l) :: rest =>
      if String.eqb k name then Some l else lookup_content rest name
  end.

(** [wms[name]]: the layer of that name; when the service has no content
    of that name the client library raises [KeyError] with the text
    "No content named " followed by the name as its argument. *)
Definition getitem (contents : list (string * layer)) (name : string)
  : Py.exn + layer :=
  match lookup_content contents name with
  | Some l => inr l
  | None => inl (Py.KeyError ("No content named " +:+ name))
  end.

(** [l[i:j]] for literal bounds [i], [j] that are not negative: bounds
    past the end are clipped, no exception is raised. *)
Definition slice {A} (i j : nat) (l : list A) : list A :=
  drop i (take j l).

(** [str(x)] for an [x] that is a string or [None], as [print] shows it. *)
Definition str (x : option string) : string :=
  match x with
  | Some s => s
  | None => "None"
  end.

(** What a listing cell works on: the namespace and what has been
    printed so far, one entry per call of [print]. *)
Record kernel : Type := {
  names : gmap string string;
  stdout : list string
}.

(** [print(line)]. *)
Definition print (line : string) (k : kernel) : (Py.exn + unit) * kernel :=
  (inr tt, {| names := names k; stdout := stdout k ++ [line] |}).

(** [for target in items: body]: each round binds the target name to the
    item, then runs the body; an exception in the body ends the loop.  The
    target stays bound after the loop. *)
Fixpoint for_each (target : string)
    (body : string -> kernel -> (Py.exn + unit) * kernel)
    (items : list string) (k : kernel) : (Py.exn + unit) * kernel :=
  match items with
  | [] => (inr tt, k)
  | item :: rest =>
      match body item {| names := <[target := item]> (names k);
                         stdout := stdout k |} with
      | (inr _, k') => for_each target body rest k'
      | (inl e, k') => (inl e, k')
      end
  end.

(** [print(wms[key].title)]. *)
Definition print_title (contents : list (string * layer)) (key : string)
    (k : kernel) : (Py.exn + unit) * kernel :=
  match getitem contents key with
  | inr l => print (str (title l)) k
  | inl e => (inl e, k)
  end.

Definition first_layers_cell (contents : list (string * layer))
  : kernel -> (Py.exn + unit) * kernel :=
  for_each "key" print (slice 0 20 (keys contents)).

Definition first_titles_cell (contents : list (string * layer))
  : kernel -> (Py.exn + unit) * kernel :=
  for_each "key" (print_title contents) (slice 0 20 (keys contents)).

Definition all_layers_cell (contents : list (string * layer))
  : kernel -> (Py.exn + unit) * kernel :=
  for_each "key" print (keys contents).

(** ** The coverage request

      layer_name = 'DHPS_1km_RiverDischarge'

      response = wcs_auth.getCoverage(identifier = [layer_name],
                     format = 'image/netcdf', subsettingcrs = 'EPSG:4326',
                     subsets = [('lat', 45.0, 46.0), ('lon', -70.0, -69.0)],
                     DIM_REFERENCE_TIME=newest_fcast, TIME=first_datetime)

    The call is modelled up to the arguments it hands to the client
    library; what the service answers is not part of the notebook. *)

(** Reading a name that no cell has bound raises [NameError]; the
    subscript [[0]] on [None] raises [TypeError]. *)
Inductive cell_exn : Type :=
| Raised (e : Py.exn)
| NameError (name : string)
| TypeError.

Definition load (name : string) (g : gmap string string) : cell_exn + string :=
  match g !! name with
  | Some v => inr v
  | None => inl (NameError name)
  end.

(** The keyword arguments of [getCoverage].  The four subset bounds are
    float literals with integer values, held as integers. *)
Record coverage_request : Type := {
  identifier : list string;
  format : string;
  subsettingcrs : string;
  subsets : list (string * Z * Z);
  DIM_REFERENCE_TIME : string;
  TIME : string
}.

Definition layer_name_cell : M unit :=
  store "layer_name" "DHPS_1km_RiverDischarge".

(** The arguments are evaluated left to right, so the first unbound name
    is the one reported.  [wcs_auth] is taken to be bound: the cell that
    opens the connection has run. *)
Definition getCoverage_cell (g : gmap string string)
  : cell_exn + coverage_request :=
  match load "layer_name" g with
  | inl e => inl e
  | inr layer_name =>
      match load "newest_fcast" g with
      | inl e => inl e
      | inr newest_fcast =>
          match load "first_datetime" g with
          | inl e => inl e
          | inr first_datetime =>
              inr {| identifier := [layer_name];
                     format := "image/netcdf";
                     subsettingcrs := "EPSG:4326";
                     subsets := [("lat", 45%Z, 46%Z); ("lon", (-70)%Z, (-69)%Z)];
                     DIM_REFERENCE_TIME := newest_fcast;
                     TIME := first_datetime |}
          end
      end
  end.

(** ** The dimension statement from its first name

    In [wms_auth[layer_name].dimensions[name]['values'][0].split('/')]
    the steps are taken left to right: the name [wms_auth], the name
    [layer_name], the subscript on the service, the attribute, the two
    dictionary lookups, the subscript [[0]], the call of [split]; then the
    unpacking and the three bindings.  [wms_auth] is either unbound
    ([None] below) or bound to a service, given by its contents. *)

(** [wms_auth[layer_name].dimensions[name]['values']]. *)
Definition layer_values (wms_auth : option (list (string * layer)))
    (name : string) (g : gmap string string)
  : cell_exn + option (list string) :=
  match wms_auth with
  | None => inl (NameError "wms_auth")
  | Some contents =>
      match load "layer_name" g with
      | inl e => inl e
      | inr layer_name =>
          match getitem contents layer_name with
          | inl e => inl (Raised e)
          | inr l =>
              match dimensions l !! name with
              | None => inl (Raised (Py.KeyError name))
              | Some d => inr (published_values d)
              end
          end
      end
  end.

(** [vals[0]] on a list or [None]. *)
Definition subscript0 (vals : option (list string)) : cell_exn + string :=
  match vals with
  | None => inl TypeError
  | Some l =>
      match Py.index0 l with
      | inl e => inl (Raised e)
      | inr v => inr v
      end
  end.

(** The whole cell: the assignment, then the expression whose value the
    notebook displays, evaluated in the namespace the assignment left. *)
Definition layer_dimension_cell (name x y z : string)
    (wms_auth : option (list (string * layer))) (g : gmap string string)
  : (cell_exn + option (list string)) * gmap string string :=
  match layer_values wms_auth name g with
  | inl e => (inl e, g)
  | inr vals =>
      match subscript0 vals with
      | inl e => (inl e, g)
      | inr v =>
          match assign_split x y z v g with
          | (inl e, g') => (inl (Raised e), g')
          | (inr _, g') =>
              match layer_values wms_auth name g' with
              | inl e => (inl e, g')
              | inr vals' => (inr vals', g')
              end
          end
      end
  end.

(** The entries of a published dictionary whose ['values'] is a list. *)
Definition listed (dims : gmap string published_dimension)
  : gmap string dimension :=
  omap (fun d => match published_values d with
                 | Some l => Some {| attributes := published_attributes d;
                                     values := l |}
                 | None => None
                 end) dims.

(** The outcome of [dimension_cell] as an outcome of the whole cell. *)
Definition of_dimension_cell (r : (Py.exn + list string) * gmap string string)
  : (cell_exn + option (list string)) * gmap string string :=
  match r with
  | (inl e, g) => (inl (Raised e), g)
  | (inr out, g) => (inr (Some out), g)
  end.

(** ** Splitting at a separator *)

Section SplitFacts.

Variable sep : ascii.

Lemma split_length (s : string) :
  length (Py.split sep s) = S (Py.count sep s).
Proof.
  induction s as [|c r IH]; simpl; [reflexivity|].
  destruct (Ascii.eqb c sep); simpl; [now rewrite IH|].
  destruct (Py.split sep r) as [|p ps]; simpl in *; [discriminate IH|exact IH].
Qed.

Lemma split_cons_other (c : ascii) (r : string) :
  Ascii.eqb c sep = false ->
  exists p ps, Py.split sep r = p :: ps /\
               Py.split sep (String c r) = String c p :: ps.
Proof.
  intros Hc. pose proof (split_length r) as Hlen.
  simpl. rewrite Hc.
  destruct (Py.split sep r) as [|p ps]; [discriminate Hlen|].
  exists p, ps. split; reflexivity.
Qed.

(** A string without the separator is its own single piece. *)
Lemma split_no_sep (a : string) :
  Py.count sep a = 0 -> Py.split sep a = [a].
Proof.
  induction a as [|c r IH]; simpl; [reflexivity|].
  destruct (Ascii.eqb c sep); [discriminate|].
  intros H. rewrite (IH H). reflexivity.
Qed.

(** The first separator after a separator-free prefix ends the first
    piece. *)
Lemma split_app_sep (a r : string) :
  Py.count sep a = 0 ->
  Py.split sep (a +:+ String sep r) = a :: Py.split sep r.
Proof.
  induction a as [|c a' IH]; simpl.
  - intros _. rewrite Ascii.eqb_refl. reflexivity.
  - destruct (Ascii.eqb c sep); [discriminate|].
    intros H. rewrite (IH H). reflexivity.
Qed.

Lemma join_cons_char (c : ascii) (p : string) (ps : list string) (j : string) :
  Py.join j (String c p :: ps) = String c (Py.join j (p :: ps)).
Proof. destruct ps; reflexivity. Qed.

(** Joining the pieces with the separator gives the string back. *)
Lemma join_split (s : string) :
  Py.join (String sep EmptyString) (Py.split sep s) = s.
Proof.
  induction s as [|c r IH]; [reflexivity|].
  destruct (Ascii.eqb c sep) eqn:Hc.
  - apply Ascii.eqb_eq in Hc. subst c.
    pose proof (split_length r) as Hlen.
    simpl. rewrite Ascii.eqb_refl.
    destruct (Py.split sep r) as [|p ps] eqn:Hr; [discriminate Hlen|].
    simpl in *. now rewrite IH.
  - destruct (split_cons_other c r Hc) as (p & ps & Hr & Hs).
    rewrite Hs, join_cons_char. rewrite Hr in IH. now rewrite IH.
Qed.

(** No piece contains the separator. *)
Lemma split_pieces_no_sep (s : string) :
  Forall (fun p => Py.count sep p = 0) (Py.split sep s).
Proof.
  induction s as [|c r IH]; simpl.
  - constructor; [reflexivity|constructor].
  - destruct (Ascii.eqb c sep) eqn:Hc.
    + constructor; [reflexivity|exact IH].
    + destruct (Py.split sep r) as [|p ps].
      * constructor; [simpl; now rewrite Hc|constructor].
      * inversion IH as [|? ? Hp Hps]; subst.
        constructor; [simpl; now rewrite Hc|exact Hps].
Qed.

End SplitFacts.

(** ** Unpacking into three targets *)

Lemma unpack3_length (pieces : list string) :
  length pieces = 3 ->
  exists a b c, pieces = [a; b; c] /\ Py.unpack3 pieces = inr (a, b, c).
Proof.
  destruct pieces as [|a [|b [|c [|d ps]]]]; simpl; try discriminate.
  intros _. exists a, b, c. split; reflexivity.
Qed.

Lemma unpack3_wrong_length (pieces : list string) :
  length pieces <> 3 ->
  Py.unpack3 pieces = inl (Py.ValueError (unpack_reason (length pieces))).
Proof.
  destruct pieces as [|a [|b [|c [|d ps]]]]; simpl; try reflexivity.
  intros H. now contradiction H.
Qed.

Lemma unpack3_inr (pieces : list string) (a b c : string) :
  Py.unpack3 pieces = inr (a, b, c) -> pieces = [a; b; c].
Proof.
  destruct pieces as [|x [|y [|z [|w ps]]]]; simpl; try discriminate.
  intros H. injection H as -> -> ->. reflexivity.
Qed.

Lemma parse_inr_split (s a b c : string) :
  parse s = inr (a, b, c) -> Py.split slash s = [a; b; c].
Proof. apply unpack3_inr. Qed.

Lemma parse_inr_count (s : string) (t : string * string * string) :
  parse s = inr t -> Py.count slash s = 2.
Proof.
  destruct t as [[a b] c]. intros H. apply parse_inr_split in H.
  pose proof (split_length slash s) as Hlen. rewrite H in Hlen.
  simpl in Hlen. lia.
Qed.

Lemma parse_wrong_count (s : string) :
  Py.count slash s <> 2 ->
  parse s = inl (Py.ValueError (unpack_reason (S (Py.count slash s)))).
Proof.
  intros H. unfold parse. rewrite <- split_length.
  apply unpack3_wrong_length. rewrite split_length. lia.
Qed.

(** ** The namespace under the statement *)

Lemma bind_raise {A B} (m : M A) (k : A -> M B) (e : Py.exn)
    (g : gmap string string) :
  m g = (inl e, g) -> bind m k g = (inl e, g).
Proof. intros H. unfold bind. now rewrite H. Qed.

Lemma bind_eval_inr {A B} (a : A) (k : A -> M B) (g : gmap string string) :
  bind (eval (inr a)) k g = k a g.
Proof. reflexivity. Qed.

Lemma eval_state {A} (r : Py.exn + A) (g : gmap string string) :
  eval r g = (r, g).
Proof. destruct r; reflexivity. Qed.

Lemma unpack_assign_inr (x y z a b c : string) (pieces : list string)
    (g : gmap string string) :
  Py.unpack3 pieces = inr (a, b, c) ->
  unpack_assign x y z pieces g =
    (inr tt, <[z := c]> (<[y := b]> (<[x := a]> g))).
Proof. intros H. unfold unpack_assign, bind. rewrite H. reflexivity. Qed.

Lemma unpack_assign_inl (x y z : string) (pieces : list string) (e : Py.exn)
    (g : gmap string string) :
  Py.unpack3 pieces = inl e -> unpack_assign x y z pieces g = (inl e, g).
Proof. intros H. unfold unpack_assign, bind. rewrite H. reflexivity. Qed.

(** Binding the same three names to the same three values a second time
    changes nothing, also when some of the names coincide. *)
Lemma rebind_same (x y z a b c : string) (g : gmap string string) :
  let g1 := <[z := c]> (<[y := b]> (<[x := a]> g)) in
  <[z := c]> (<[y := b]> (<[x := a]> g1)) = g1.
Proof.
  intros g1. subst g1. apply map_eq. intros k.
  rewrite !lookup_insert. repeat case_decide; reflexivity.
Qed.

(** A cell that raises leaves the namespace as it found it, whichever
    exception it is. *)
Lemma dimension_cell_failure (name x y z : string)
    (dimensions : gmap string dimension) (g : gmap string string) (e : Py.exn) :
  (dimension_cell name x y z dimensions g).1 = inl e ->
  (dimension_cell name x y z dimensions g).2 = g.
Proof.
  unfold dimension_cell, assign_split, unpack_assign, bind, eval, ret, raise, store.
  destruct (lookup_dimension dimensions name) as [e1|d]; simpl; [reflexivity|].
  destruct (Py.index0 (values d)) as [e2|v]; simpl; [reflexivity|].
  destruct (Py.unpack3 (Py.split slash v)) as [e3|t]; simpl; [reflexivity|].
  discriminate.
Qed.

(** The names a cell binds are decided by the first descriptor of the
    dimension alone. *)
Lemma dimension_cell_names_first_entry (name x y z : string)
    (dimensions dimensions' : gmap string dimension) (d d' : dimension)
    (g : gmap string string) :
  dimensions !! name = Some d -> dimensions' !! name = Some d' ->
  head (values d) = head (values d') ->
  (dimension_cell name x y z dimensions g).2
  = (dimension_cell name x y z dimensions' g).2.
Proof.
  intros Hd Hd' Hhead.
  unfold dimension_cell, lookup_dimension, assign_split, unpack_assign,
    bind, eval, ret, raise, store.
  rewrite Hd, Hd'. simpl.
  destruct (values d) as [|v vs], (values d') as [|v' vs']; simpl in *;
    try discriminate; [reflexivity|].
  injection Hhead as <-.
  destruct (Py.unpack3 (Py.split slash v)) as [e|t]; reflexivity.
Qed.

(** The two cells on the dimensions the notebook prints: each binds its
    three names and displays the list of descriptors. *)
Example reference_time_cell_demo :
  let '(out, g) := reference_time_cell demo_dimensions ∅ in
  out = inr ["2022-06-19T12:00:00Z/2022-06-21T00:00:00Z/PT12H"] /\
  g !! "oldest_fcast" = Some "2022-06-19T12:00:00Z" /\
  g !! "newest_fcast" = Some "2022-06-21T00:00:00Z" /\
  g !! "issue_interval" = Some "PT12H".
Proof. vm_compute. repeat split. Qed.

Example time_cell_demo :
  let '(out, g) := time_cell demo_dimensions ∅ in
  out = inr ["2022-06-21T01:00:00Z/2022-06-27T00:00:00Z/PT1H"] /\
  g !! "first_datetime" = Some "2022-06-21T01:00:00Z" /\
  g !! "last_datetime" = Some "2022-06-27T00:00:00Z" /\
  g !! "datetime_interval" = Some "PT1H".
Proof. vm_compute. repeat split. Qed.

(** An empty list of descriptors stops the cell at the subscript. *)
Example resolve_empty : resolve [] = inl Py.IndexError.
Proof. reflexivity. Qed.

(** ** The claims *)

(** C1: for every descriptor "<a>/<b>/<c>" whose three fields contain no
    '/', [parse] returns the triple (a, b, c): the three substrings in
    their order, unmodified. *)
Theorem parse_well_formed (a b c : string) :
  Py.count slash a = 0 -> Py.count slash b = 0 -> Py.count slash c = 0 ->
  parse (a +:+ "/" +:+ b +:+ "/" +:+ c) = inr (a, b, c).
Proof.
  intros Ha Hb Hc. unfold parse.
  change (a +:+ "/" +:+ b +:+ "/" +:+ c)
    with (a +:+ String slash (b +:+ String slash c)).
  rewrite (split_app_sep slash a _ Ha), (split_app_sep slash b _ Hb),
    (split_no_sep slash c Hc).
  reflexivity.
Qed.

Lemma parse_well_formed_witness :
  parse ("20220619T12Z" +:+ "/" +:+ "" +:+ "/" +:+ "PT12H")
  = inr ("20220619T12Z", "", "PT12H").
Proof. apply (parse_well_formed "20220619T12Z" "" "PT12H"); reflexivity. Defined.

(** C2: for every string whose number of '/' is not two, [parse] fails
    with the MalformedDescriptor condition (the unpacking's ValueError,
    with CPython's reason for the number of pieces), and returns no
    triple: nothing is truncated or padded. *)
Theorem parse_wrong_separator_count (s : string) :
  Py.count slash s <> 2 ->
  MalformedDescriptor (parse s) /\
  parse s = inl (Py.ValueError (unpack_reason (S (Py.count slash s)))) /\
  forall t, parse s <> inr t.
Proof.
  intros H. pose proof (parse_wrong_count s H) as Hp.
  split; [|split].
  - eexists. exact Hp.
  - exact Hp.
  - intros t Ht. rewrite Hp in Ht. discriminate Ht.
Qed.

Lemma parse_wrong_separator_count_witness :
  MalformedDescriptor (parse "a/b") /\
  parse "a/b" = inl (Py.ValueError (Py.NotEnoughValues 3 2)) /\
  forall t, parse "a/b" <> inr t.
Proof. apply (parse_wrong_separator_count "a/b"). simpl. lia. Defined.

(** C3: when [parse] fails on a descriptor, the assignment statement
    yields no triple and binds none of its three names: it raises the
    same exception and the namespace is the one it started from. *)
Theorem parse_failure_binds_nothing (x y z descriptor : string) (e : Py.exn)
    (g : gmap string string) :
  parse descriptor = inl e ->
  assign_split x y z descriptor g = (inl e, g).
Proof. intros H. apply unpack_assign_inl. exact H. Qed.

Lemma parse_failure_binds_nothing_witness :
  assign_split "first_datetime" "last_datetime" "datetime_interval" "a/b/c/d"
    (<["first_datetime" := "kept"]> ∅)
  = (inl (Py.ValueError (Py.TooManyValues 3)), <["first_datetime" := "kept"]> ∅).
Proof.
  apply (parse_failure_binds_nothing _ _ _ "a/b/c/d"). reflexivity.
Defined.

(** C4: the resolution of a dimension's range reads only the first entry
    of the values list: with at least one entry the result is that of
    [parse] on [values[0]], whatever the further entries are. *)
Theorem resolve_first_entry_only (v : string) (rest rest' : list string) :
  resolve (v :: rest) = parse v /\
  resolve (v :: rest) = resolve (v :: rest').
Proof. split; reflexivity. Qed.

(** C5: a constructed DimensionRange has a rawDescriptor with exactly two
    '/' separators, and an input without exactly two separators is
    malformed and yields no DimensionRange. *)
Theorem DimensionRange_invariant :
  (forall d r, construct d = inr r -> Py.count slash (rawDescriptor r) = 2) /\
  (forall d, Py.count slash d <> 2 ->
     MalformedDescriptor (construct d) /\ forall r, construct d <> inr r).
Proof.
  split.
  - intros d r. unfold construct.
    destruct (parse d) as [e|[[a b] c]] eqn:Hp; [discriminate|].
    intros H. injection H as <-. simpl. exact (parse_inr_count d _ Hp).
  - intros d H. unfold construct. rewrite (parse_wrong_count d H).
    split; [eexists; reflexivity|discriminate].
Qed.

Lemma DimensionRange_invariant_witness :
  Py.count slash
    (rawDescriptor {| rawDescriptor := "2022/2023/PT1H"; start := "2022";
                      end_ := "2023"; step := "PT1H" |}) = 2 /\
  (MalformedDescriptor (construct "2022/2023") /\
   forall r, construct "2022/2023" <> inr r).
Proof.
  split.
  - apply (proj1 DimensionRange_invariant "2022/2023/PT1H"). reflexivity.
  - apply (proj2 DimensionRange_invariant "2022/2023"). simpl. lia.
Defined.

(** The assignment statement run a second time on the same descriptor
    gives the outcome and the namespace of the first run, also when some
    of its target names coincide. *)
Lemma assign_split_rerun (x y z d : string) (g : gmap string string) :
  assign_split x y z d (assign_split x y z d g).2 = assign_split x y z d g.
Proof.
  unfold assign_split.
  destruct (Py.unpack3 (Py.split slash d)) as [e|[[a b] c]] eqn:Hu.
  - rewrite (unpack_assign_inl _ _ _ _ _ g Hu). simpl.
    apply unpack_assign_inl, Hu.
  - rewrite (unpack_assign_inr _ _ _ _ _ _ _ g Hu). simpl.
    rewrite (unpack_assign_inr _ _ _ _ _ _ _ _ Hu).
    f_equal. apply rebind_same.
Qed.

(** C7: the two descriptors of the notebook parse to the listed triples. *)
Theorem parse_notebook_descriptors :
  parse "2022-06-19T12:00:00Z/2022-06-21T00:00:00Z/PT12H"
    = inr ("2022-06-19T12:00:00Z", "2022-06-21T00:00:00Z", "PT12H") /\
  parse "2022-06-21T01:00:00Z/2022-06-27T00:00:00Z/PT1H"
    = inr ("2022-06-21T01:00:00Z", "2022-06-27T00:00:00Z", "PT1H").
Proof. split; vm_compute; reflexivity. Qed.

(** C8: "onlyonefield" and "a/b/c/d" both fail with MalformedDescriptor;
    the four-field input gives no triple, ("a", "b", "c/d") included. *)
Theorem parse_malformed_scenarios :
  MalformedDescriptor (parse "onlyonefield") /\
  MalformedDescriptor (parse "a/b/c/d") /\
  parse "a/b/c/d" <> inr ("a", "b", "c/d") /\
  forall t, parse "a/b/c/d" <> inr t.
Proof.
  repeat split; try (eexists; vm_compute; reflexivity);
    try intros t; vm_compute; discriminate.
Qed.

(** C9: when [parse] succeeds with (start, end, step), the text
    start ++ "/" ++ end ++ "/" ++ step is the input string. *)
Theorem parse_reconstruct (s a b c : string) :
  parse s = inr (a, b, c) ->
  a +:+ "/" +:+ b +:+ "/" +:+ c = s.
Proof.
  intros H. apply parse_inr_split in H.
  pose proof (join_split slash s) as Hj. rewrite H in Hj. exact Hj.
Qed.

Lemma parse_reconstruct_witness :
  "2022-06-21T01:00:00Z" +:+ "/" +:+ "2022-06-27T00:00:00Z" +:+ "/" +:+ "PT1H"
  = "2022-06-21T01:00:00Z/2022-06-27T00:00:00Z/PT1H".
Proof.
  apply (parse_reconstruct "2022-06-21T01:00:00Z/2022-06-27T00:00:00Z/PT1H").
  reflexivity.
Defined.

(** C10: [parse] validates no field content: every input with exactly two
    '/' succeeds, empty fields included, and "//" gives three empty
    strings. *)
Theorem parse_no_content_validation :
  (forall s, Py.count slash s = 2 -> exists a b c, parse s = inr (a, b, c)) /\
  parse "//" = inr ("", "", "").
Proof.
  split; [|reflexivity].
  intros s H. unfold parse.
  destruct (unpack3_length (Py.split slash s)) as (a & b & c & _ & Hu).
  - rewrite split_length, H. reflexivity.
  - exists a, b, c. exact Hu.
Qed.

Lemma parse_no_content_validation_witness :
  (exists a b c, parse "/x/" = inr (a, b, c)) /\ parse "//" = inr ("", "", "").
Proof.
  split.
  - apply (proj1 parse_no_content_validation "/x/"). reflexivity.
  - exact (proj2 parse_no_content_validation).
Defined.

(** ** Further properties of the splitting *)

(** X1: for every separator and every string, [split] cuts the string
    exactly at its separators: there is one piece more than there are
    separators, no piece contains the separator, and the pieces joined
    with the separator give the string back. *)
Theorem split_cuts_at_separators (sep : ascii) (s : string) :
  length (Py.split sep s) = S (Py.count sep s) /\
  Forall (fun p => Py.count sep p = 0) (Py.split sep s) /\
  Py.join (String sep EmptyString) (Py.split sep s) = s.
Proof.
  split; [apply split_length|].
  split; [apply split_pieces_no_sep|apply join_split].
Qed.

(** X2: splitting undoes joining: a non-empty list of pieces without the
    separator, joined with it and split again, is the same list, however
    many pieces there are. *)
Theorem split_join (sep : ascii) (pieces : list string) :
  pieces <> [] ->
  Forall (fun p => Py.count sep p = 0) pieces ->
  Py.split sep (Py.join (String sep EmptyString) pieces) = pieces.
Proof.
  intros Hne Hfree. induction Hfree as [|p ps Hp Hps IH]; [now contradiction Hne|].
  destruct ps as [|q qs].
  - simpl. apply split_no_sep, Hp.
  - change (Py.join (String sep EmptyString) (p :: q :: qs))
      with (p +:+ String sep (Py.join (String sep EmptyString) (q :: qs))).
    rewrite (split_app_sep sep p _ Hp), IH; [reflexivity|discriminate].
Qed.

Lemma split_join_witness :
  Py.split slash (Py.join "/" ["2022"; ""; "PT1H"; "x"]) = ["2022"; ""; "PT1H"; "x"].
Proof.
  apply (split_join slash ["2022"; ""; "PT1H"; "x"]); [discriminate|].
  repeat constructor.
Defined.

(** X3: the three fields of a successful [parse] contain no '/'. *)
Theorem parse_fields_without_slash (s a b c : string) :
  parse s = inr (a, b, c) ->
  Py.count slash a = 0 /\ Py.count slash b = 0 /\ Py.count slash c = 0.
Proof.
  intros H. apply parse_inr_split in H.
  pose proof (split_pieces_no_sep slash s) as Hfree. rewrite H in Hfree.
  inversion Hfree as [|? ? Ha Hbc]; subst.
  inversion Hbc as [|? ? Hb Hc']; subst.
  inversion Hc' as [|? ? Hc _]; subst.
  repeat split; assumption.
Qed.

Lemma parse_fields_without_slash_witness :
  Py.count slash "a" = 0 /\ Py.count slash "" = 0 /\ Py.count slash "PT1H" = 0.
Proof. apply (parse_fields_without_slash "a//PT1H"). reflexivity. Defined.

(** X4: two descriptors that parse to the same triple are the same
    string. *)
Theorem parse_injective (s s' : string) (t : string * string * string) :
  parse s = inr t -> parse s' = inr t -> s = s'.
Proof.
  destruct t as [[a b] c]. intros H H'.
  apply parse_inr_split in H. apply parse_inr_split in H'.
  rewrite <- (join_split slash s), <- (join_split slash s'), H, H'.
  reflexivity.
Qed.

Lemma parse_injective_witness : "a/b/c" = "a/b/c".
Proof.
  apply (parse_injective "a/b/c" "a/b/c" ("a", "b", "c")); reflexivity.
Defined.

(** ** Further properties of the dimension cells *)

(** What a cell does to the namespace does not depend on the namespace:
    it either leaves every namespace alone or binds the same three values
    in every namespace; its result is the same in every namespace. *)
Lemma dimension_cell_shape (name x y z : string)
    (dims : gmap string dimension) :
  (exists e, forall g, dimension_cell name x y z dims g = (inl e, g)) \/
  (exists d v a b c,
     dims !! name = Some d /\ head (values d) = Some v /\
     parse v = inr (a, b, c) /\
     forall g, dimension_cell name x y z dims g
               = (inr (values d), <[z := c]> (<[y := b]> (<[x := a]> g)))).
Proof.
  unfold dimension_cell, lookup_dimension, assign_split, unpack_assign,
    bind, eval, ret, raise, store.
  destruct (dims !! name) as [d|] eqn:Hd; simpl; [|left; eexists; reflexivity].
  destruct (values d) as [|v vs] eqn:Hv; simpl; [left; eexists; reflexivity|].
  destruct (Py.unpack3 (Py.split slash v)) as [e|[[a b] c]] eqn:Hu; simpl.
  - left. eexists. reflexivity.
  - right. exists d, v, a, b, c. rewrite Hv. repeat split. exact Hu.
Qed.

(** Given the dictionary, the outcome of a dimension cell is decided by
    the presence of the dimension, the length of its values list and the
    number of '/' in the first descriptor. *)
Lemma dimension_cell_result (name x y z : string)
    (dims : gmap string dimension) (g : gmap string string) :
  (dimension_cell name x y z dims g).1 =
  match dims !! name with
  | None => inl (Py.KeyError name)
  | Some d =>
      match values d with
      | [] => inl Py.IndexError
      | v :: _ =>
          if decide (Py.count slash v = 2) then inr (values d)
          else inl (Py.ValueError (unpack_reason (S (Py.count slash v))))
      end
  end.
Proof.
  unfold dimension_cell, lookup_dimension, assign_split, unpack_assign,
    bind, eval, ret, raise, store.
  destruct (dims !! name) as [d|]; simpl; [|reflexivity].
  destruct (values d) as [|v vs] eqn:Hv; simpl; [reflexivity|].
  destruct (decide (Py.count slash v = 2)) as [H2|H2].
  - destruct (unpack3_length (Py.split slash v)) as (a & b & c & _ & Hu).
    { rewrite split_length, H2. reflexivity. }
    rewrite Hu. reflexivity.
  - pose proof (parse_wrong_count v H2) as Hp. unfold parse in Hp.
    rewrite Hp. reflexivity.
Qed.

(** Once the names and lookups in front of ['values'] have given a
    list, the whole cell is [dimension_cell] on the listed entries of the
    layer's dictionary. *)
Lemma layer_dimension_cell_inner (name x y z : string)
    (contents : list (string * layer)) (g : gmap string string)
    (n : string) (l : layer) (d : published_dimension) (vals : list string) :
  x <> "layer_name" -> y <> "layer_name" -> z <> "layer_name" ->
  g !! "layer_name" = Some n -> lookup_content contents n = Some l ->
  dimensions l !! name = Some d -> published_values d = Some vals ->
  layer_dimension_cell name x y z (Some contents) g
  = of_dimension_cell (dimension_cell name x y z (listed (dimensions l)) g).
Proof.
  intros Hx Hy Hz Hn Hl Hd Hvals.
  assert (Hlisted : listed (dimensions l) !! name
                    = Some {| attributes := published_attributes d;
                              values := vals |}).
  { unfold listed. rewrite lookup_omap, Hd. simpl. rewrite Hvals. reflexivity. }
  unfold layer_dimension_cell, layer_values, load, getitem, subscript0.
  rewrite Hn, Hl, Hd, Hvals.
  unfold dimension_cell, lookup_dimension, bind, eval, ret, raise.
  rewrite Hlisted. simpl.
  destruct vals as [|v vs]; simpl; [reflexivity|].
  unfold assign_split.
  destruct (Py.unpack3 (Py.split slash v)) as [e|[[a b] c]] eqn:Hu.
  - rewrite (unpack_assign_inl _ _ _ _ _ g Hu). reflexivity.
  - rewrite (unpack_assign_inr _ _ _ _ _ _ _ g Hu).
    rewrite !lookup_insert_ne by congruence.
    rewrite Hn, Hl, Hd, Hvals. reflexivity.
Qed.

(** X5: the outcome of a dimension cell, from its first name on, is
    decided in the order in which the statement is evaluated: wms_auth
    unbound is a NameError, layer_name unbound a NameError, a layer the
    service does not have a KeyError with the client library's text, a
    dimension the layer does not have a KeyError for its name, a values
    entry that is None a TypeError, an empty values list an IndexError, a
    first descriptor without exactly two '/' a ValueError with the reason
    for its number of pieces; otherwise the cell displays the values
    list.  The targets are names other than layer_name. *)
Theorem layer_dimension_cell_outcome (name x y z : string)
    (wms_auth : option (list (string * layer))) (g : gmap string string) :
  x <> "layer_name" -> y <> "layer_name" -> z <> "layer_name" ->
  (layer_dimension_cell name x y z wms_auth g).1 =
  match wms_auth with
  | None => inl (NameError "wms_auth")
  | Some contents =>
      match g !! "layer_name" with
      | None => inl (NameError "layer_name")
      | Some n =>
          match lookup_content contents n with
          | None => inl (Raised (Py.KeyError ("No content named " +:+ n)))
          | Some l =>
              match dimensions l !! name with
              | None => inl (Raised (Py.KeyError name))
              | Some d =>
                  match published_values d with
                  | None => inl TypeError
                  | Some [] => inl (Raised Py.IndexError)
                  | Some (v :: vs) =>
                      if decide (Py.count slash v = 2) then inr (Some (v :: vs))
                      else inl (Raised (Py.ValueError
                                  (unpack_reason (S (Py.count slash v)))))
                  end
              end
          end
      end
  end.
Proof.
  intros Hx Hy Hz.
  destruct wms_auth as [contents|]; [|reflexivity].
  destruct (g !! "layer_name") as [n|] eqn:Hn;
    [|unfold layer_dimension_cell, layer_values, load; now rewrite Hn].
  destruct (lookup_content contents n) as [l|] eqn:Hl;
    [|unfold layer_dimension_cell, layer_values, load, getitem;
      now rewrite Hn, Hl].
  destruct (dimensions l !! name) as [d|] eqn:Hd;
    [|unfold layer_dimension_cell, layer_values, load, getitem;
      now rewrite Hn, Hl, Hd].
  destruct (published_values d) as [vals|] eqn:Hvals;
    [|unfold layer_dimension_cell, layer_values, load, getitem;
      now rewrite Hn, Hl, Hd, Hvals].
  rewrite (layer_dimension_cell_inner _ _ _ _ _ _ _ _ _ _ Hx Hy Hz Hn Hl Hd Hvals).
  pose proof (dimension_cell_result name x y z (listed (dimensions l)) g) as Hr.
  assert (Hlisted : listed (dimensions l) !! name
                    = Some {| attributes := published_attributes d;
                              values := vals |}).
  { unfold listed. rewrite lookup_omap, Hd. simpl. rewrite Hvals. reflexivity. }
  rewrite Hlisted in Hr. simpl in Hr.
  destruct (dimension_cell name x y z (listed (dimensions l)) g) as [r g'].
  simpl in Hr. subst r. simpl.
  destruct vals as [|v vs]; [reflexivity|].
  destruct (decide (Py.count slash v = 2)); reflexivity.
Qed.

Lemma layer_dimension_cell_outcome_witness :
  (layer_dimension_cell "reference_time" "oldest_fcast" "newest_fcast"
     "issue_interval"
     (Some [("DHPS_1km_RiverDischarge",
             {| title := None;
                dimensions :=
                  <["reference_time" :=
                      {| published_attributes := ∅;
                         published_values := None |}]> ∅ |})])
     (<["layer_name" := "DHPS_1km_RiverDischarge"]> ∅)).1
  = inl TypeError.
Proof.
  rewrite layer_dimension_cell_outcome by discriminate.
  reflexivity.
Defined.

(** X6: a dimension cell is all or nothing on the namespace: when it
    raises, whichever the exception, the namespace is the one it started
    from; when it returns, the three names are bound to the three fields
    of the first descriptor, which is the three fields joined by '/'. *)
Theorem dimension_cell_all_or_nothing (name x y z : string)
    (dims : gmap string dimension) (g : gmap string string) :
  match (dimension_cell name x y z dims g).1 with
  | inl _ => (dimension_cell name x y z dims g).2 = g
  | inr _ =>
      exists d v a b c,
        dims !! name = Some d /\ head (values d) = Some v /\
        v = a +:+ "/" +:+ b +:+ "/" +:+ c /\
        (dimension_cell name x y z dims g).2
        = <[z := c]> (<[y := b]> (<[x := a]> g))
  end.
Proof.
  destruct (dimension_cell_shape name x y z dims)
    as [[e He]|(d & v & a & b & c & Hd & Hv & Hp & Hc)].
  - rewrite He. reflexivity.
  - rewrite Hc. simpl. exists d, v, a, b, c. repeat split; try assumption.
    apply parse_inr_split in Hp.
    pose proof (join_split slash v) as Hj. rewrite Hp in Hj.
    symmetry. exact Hj.
Qed.

(** X7: a dimension cell never changes a name other than its three
    targets, whether it raises or returns. *)
Theorem dimension_cell_other_names (name x y z k : string)
    (dims : gmap string dimension) (g : gmap string string) :
  k <> x -> k <> y -> k <> z ->
  (dimension_cell name x y z dims g).2 !! k = g !! k.
Proof.
  intros Hx Hy Hz.
  destruct (dimension_cell_shape name x y z dims)
    as [[e He]|(d & v & a & b & c & _ & _ & _ & Hc)].
  - rewrite He. reflexivity.
  - rewrite Hc. simpl. rewrite !lookup_insert_ne by congruence. reflexivity.
Qed.

Lemma dimension_cell_other_names_witness :
  (time_cell demo_dimensions (<["layer_name" := "DHPS"]> ∅)).2 !! "layer_name"
  = (<["layer_name" := "DHPS"]> ∅ : gmap string string) !! "layer_name".
Proof.
  apply (dimension_cell_other_names "time" "first_datetime" "last_datetime"
           "datetime_interval" "layer_name"); discriminate.
Defined.

(** X8: the reference-time cell and the time cell can be run in either
    order: the namespace afterwards is the same, also when one of them
    or both raise, and neither changes the outcome of the other. *)
Theorem dimension_cells_commute (dims : gmap string dimension)
    (g : gmap string string) :
  (time_cell dims (reference_time_cell dims g).2).2
  = (reference_time_cell dims (time_cell dims g).2).2 /\
  (time_cell dims (reference_time_cell dims g).2).1 = (time_cell dims g).1 /\
  (reference_time_cell dims (time_cell dims g).2).1
  = (reference_time_cell dims g).1.
Proof.
  unfold time_cell, reference_time_cell.
  destruct (dimension_cell_shape "reference_time" "oldest_fcast" "newest_fcast"
              "issue_interval" dims)
    as [[e He]|(d & v & a & b & c & _ & _ & _ & Hc)];
  destruct (dimension_cell_shape "time" "first_datetime" "last_datetime"
              "datetime_interval" dims)
    as [[e' He']|(d' & v' & a' & b' & c' & _ & _ & _ & Hc')];
  rewrite ?He, ?Hc, ?He', ?Hc'; simpl; rewrite ?He, ?Hc, ?He', ?Hc'; simpl;
  repeat split.
  apply map_eq. intros k.
  rewrite !lookup_insert. repeat case_decide; subst; try reflexivity; discriminate.
Qed.

(** ** Properties of the layer listings *)

(** Binding one name again and again leaves the last value. *)
Lemma foldl_rebind (target : string) (items : list string)
    (g : gmap string string) :
  foldl (fun g' i => <[target := i]> g') g items
  = match last items with
    | Some i => <[target := i]> g
    | None => g
    end.
Proof.
  revert g. induction items as [|a rest IH]; intros g; [reflexivity|].
  simpl foldl. rewrite IH, last_cons.
  destruct (last rest); [apply insert_insert_eq|reflexivity].
Qed.

Lemma for_each_print (target : string) (items : list string) (k : kernel) :
  for_each target print items k
  = (inr tt, {| names := foldl (fun g i => <[target := i]> g) (names k) items;
                stdout := stdout k ++ items |}).
Proof.
  revert k. induction items as [|a rest IH]; intros [g out]; simpl.
  - rewrite app_nil_r. reflexivity.
  - rewrite IH. simpl. rewrite <- app_assoc. reflexivity.
Qed.

Lemma for_each_print_title (contents : list (string * layer))
    (target : string) (items : list string) (k : kernel) :
  Forall (fun i => is_Some (lookup_content contents i)) items ->
  for_each target (print_title contents) items k
  = (inr tt,
     {| names := foldl (fun g i => <[target := i]> g) (names k) items;
        stdout := stdout k ++
          map (fun i => str (from_option title None (lookup_content contents i)))
              items |}).
Proof.
  intros Hall. revert k.
  induction Hall as [|a rest [l Hl] _ IH]; intros [g out]; simpl.
  - rewrite app_nil_r. reflexivity.
  - unfold print_title, getitem. rewrite Hl. simpl.
    rewrite IH. simpl. rewrite <- app_assoc. reflexivity.
Qed.

(** Every key of the dictionary is found in it. *)
Lemma lookup_content_keys (contents : list (string * layer)) :
  Forall (fun i => is_Some (lookup_content contents i)) (keys contents).
Proof.
  apply List.Forall_forall. intros i Hi.
  induction contents as [|[k l] rest IH]; [destruct Hi|].
  simpl. destruct (String.eqb k i) eqn:Hk; [eexists; reflexivity|].
  apply IH. destruct Hi as [Hi|Hi]; [|exact Hi].
  simpl in Hi. subst i. rewrite String.eqb_refl in Hk. discriminate Hk.
Qed.

(** With distinct keys, each item is found under its own key. *)
Lemma lookup_content_item (contents : list (string * layer)) :
  List.NoDup (keys contents) ->
  Forall (fun kl => lookup_content contents kl.1 = Some kl.2) contents.
Proof.
  intros Hnd. apply List.Forall_forall. intros [i li] Hi. simpl.
  induction contents as [|[k l] rest IH]; [destruct Hi|].
  simpl in Hnd. apply List.NoDup_cons_iff in Hnd as [Hk Hrest].
  simpl. destruct Hi as [Hi|Hi].
  - injection Hi as -> ->. rewrite String.eqb_refl. reflexivity.
  - destruct (String.eqb k i) eqn:Hki; [|apply IH; assumption].
    apply String.eqb_eq in Hki. subst i. contradiction Hk.
    apply (List.in_map fst) in Hi. exact Hi.
Qed.

(** X9: the first listing never raises and prints the first twenty layer
    names in the dictionary's order, all of them when there are fewer;
    the full listing prints every name, and the two cells do the same
    when the service has at most twenty layers. *)
Theorem layer_listing_output (contents : list (string * layer)) (k : kernel) :
  (first_layers_cell contents k).1 = inr tt /\
  stdout (first_layers_cell contents k).2
    = (stdout k ++ take 20 (keys contents))%list /\
  length (stdout (first_layers_cell contents k).2)
    = length (stdout k) + Nat.min 20 (length contents) /\
  (all_layers_cell contents k).1 = inr tt /\
  stdout (all_layers_cell contents k).2 = (stdout k ++ keys contents)%list /\
  (length contents <= 20 ->
   first_layers_cell contents k = all_layers_cell contents k).
Proof.
  unfold first_layers_cell, all_layers_cell, slice. rewrite drop_0.
  rewrite !for_each_print. cbn [fst snd stdout names].
  split; [reflexivity|]. split; [reflexivity|]. split; [|split; [reflexivity|split; [reflexivity|]]].
  - rewrite length_app, length_take. unfold keys. rewrite length_map. lia.
  - intros Hlen. rewrite take_ge; [reflexivity|].
    unfold keys. rewrite length_map. lia.
Qed.

Lemma layer_listing_output_witness :
  first_layers_cell [("DHPS_1km_RiverDischarge", {| title := None; dimensions := ∅ |})]
    {| names := ∅; stdout := [] |}
  = all_layers_cell [("DHPS_1km_RiverDischarge", {| title := None; dimensions := ∅ |})]
      {| names := ∅; stdout := [] |}.
Proof.
  apply (layer_listing_output
           [("DHPS_1km_RiverDischarge", {| title := None; dimensions := ∅ |})]).
  simpl. lia.
Defined.

(** X10: the title listing never raises: every key it passes to
    [wms[key]] comes from the dictionary, so no KeyError can occur, and
    it prints one line per listed key. *)
Theorem title_listing_never_raises (contents : list (string * layer))
    (k : kernel) :
  (first_titles_cell contents k).1 = inr tt /\
  length (stdout (first_titles_cell contents k).2)
    = length (stdout k) + Nat.min 20 (length contents).
Proof.
  unfold first_titles_cell, slice. rewrite drop_0.
  rewrite for_each_print_title
    by (apply Forall_take, lookup_content_keys).
  cbn [fst snd stdout names]. split; [reflexivity|].
  rewrite length_app, length_map, length_take. unfold keys.
  rewrite length_map. lia.
Qed.

(** X11: when the keys of the dictionary are distinct, the title listing
    prints the titles of the first twenty layers in the dictionary's
    order, a missing title as the text None. *)
Theorem title_listing_output (contents : list (string * layer)) (k : kernel) :
  List.NoDup (keys contents) ->
  stdout (first_titles_cell contents k).2
  = (stdout k ++ map (fun kl => str (title kl.2)) (take 20 contents))%list.
Proof.
  intros Hnd. unfold first_titles_cell, slice. rewrite drop_0.
  rewrite for_each_print_title
    by (apply Forall_take, lookup_content_keys).
  cbn [fst snd stdout names]. f_equal. unfold keys. rewrite firstn_map, map_map.
  apply map_ext_Forall.
  eapply Forall_impl; [apply Forall_take, lookup_content_item, Hnd|].
  intros [i l] Hl. simpl in *. rewrite Hl. reflexivity.
Qed.

Lemma title_listing_output_witness :
  stdout (first_titles_cell
            [("a", {| title := Some "Layer A"; dimensions := ∅ |});
             ("b", {| title := None; dimensions := ∅ |})]
            {| names := ∅; stdout := ["before"] |}).2
  = (["before"] ++ map (fun kl => str (title kl.2))
       (take 20 [("a", {| title := Some "Layer A"; dimensions := ∅ |});
                 ("b", {| title := None; dimensions := ∅ |})]))%list.
Proof.
  apply (title_listing_output
           [("a", {| title := Some "Layer A"; dimensions := ∅ |});
            ("b", {| title := None; dimensions := ∅ |})]).
  repeat constructor; simpl; intuition discriminate.
Defined.

(** X12: a listing loop leaves its loop variable bound: after the cell
    the name key holds the last layer name listed and every other name is
    as before; when the service has no layer the namespace is unchanged
    and key is not bound by the loop. *)
Theorem listing_loop_variable (contents : list (string * layer)) (k : kernel) :
  names (first_layers_cell contents k).2
    = from_option (fun i => <["key" := i]> (names k)) (names k)
        (last (take 20 (keys contents))) /\
  names (first_titles_cell contents k).2
    = names (first_layers_cell contents k).2 /\
  names (all_layers_cell contents k).2
    = from_option (fun i => <["key" := i]> (names k)) (names k)
        (last (keys contents)) /\
  first_layers_cell [] k = (inr tt, k) /\
  first_titles_cell [] k = (inr tt, k) /\
  all_layers_cell [] k = (inr tt, k).
Proof.
  unfold first_layers_cell, first_titles_cell, all_layers_cell, slice.
  rewrite !drop_0.
  rewrite for_each_print_title
    by (apply Forall_take, lookup_content_keys).
  rewrite !for_each_print. cbn [fst snd stdout names].
  rewrite !foldl_rebind.
  repeat split; try (destruct (last _); reflexivity).
  all: destruct k as [g out]; cbn; rewrite app_nil_r; reflexivity.
Qed.

(** ** Properties of the coverage request *)

(** A cell whose dimension resolves binds the three fields in every
    namespace. *)
Lemma dimension_cell_resolved (name x y z : string)
    (dims : gmap string dimension) (d : dimension) (a b c : string)
    (g : gmap string string) :
  dims !! name = Some d -> resolve (values d) = inr (a, b, c) ->
  dimension_cell name x y z dims g
  = (inr (values d), <[z := c]> (<[y := b]> (<[x := a]> g))).
Proof.
  intros Hd Hr. unfold resolve in Hr.
  unfold dimension_cell, lookup_dimension, assign_split, unpack_assign,
    bind, eval, ret, raise, store.
  rewrite Hd. simpl.
  destruct (values d) as [|v vs]; simpl in *; [discriminate Hr|].
  unfold parse in Hr. rewrite Hr. reflexivity.
Qed.

(** X13: when both dimensions resolve, the request handed to getCoverage
    after the two dimension cells and the layer-name cell carries the end
    of the reference-time range (the newest forecast issue) as
    DIM_REFERENCE_TIME and the start of the time range as TIME, whatever
    the namespace held before. *)
Theorem coverage_request_times (dims : gmap string dimension)
    (g : gmap string string) (d1 d2 : dimension) (a b c d e f : string) :
  dims !! "reference_time" = Some d1 -> resolve (values d1) = inr (a, b, c) ->
  dims !! "time" = Some d2 -> resolve (values d2) = inr (d, e, f) ->
  getCoverage_cell
    (layer_name_cell (time_cell dims (reference_time_cell dims g).2).2).2
  = inr {| identifier := ["DHPS_1km_RiverDischarge"];
           format := "image/netcdf";
           subsettingcrs := "EPSG:4326";
           subsets := [("lat", 45%Z, 46%Z); ("lon", (-70)%Z, (-69)%Z)];
           DIM_REFERENCE_TIME := b;
           TIME := d |}.
Proof.
  intros H1 R1 H2 R2. unfold time_cell, reference_time_cell.
  rewrite (dimension_cell_resolved _ _ _ _ _ _ _ _ _ g H1 R1). cbn [snd].
  rewrite (dimension_cell_resolved _ _ _ _ _ _ _ _ _ _ H2 R2). cbn [snd].
  unfold getCoverage_cell, load, layer_name_cell, store. cbn [snd].
  rewrite lookup_insert_eq.
  rewrite (lookup_insert_ne _ "layer_name" "newest_fcast") by discriminate.
  rewrite (lookup_insert_ne _ "datetime_interval" "newest_fcast") by discriminate.
  rewrite (lookup_insert_ne _ "last_datetime" "newest_fcast") by discriminate.
  rewrite (lookup_insert_ne _ "first_datetime" "newest_fcast") by discriminate.
  rewrite (lookup_insert_ne _ "issue_interval" "newest_fcast") by discriminate.
  rewrite lookup_insert_eq.
  rewrite (lookup_insert_ne _ "layer_name" "first_datetime") by discriminate.
  rewrite (lookup_insert_ne _ "datetime_interval" "first_datetime") by discriminate.
  rewrite (lookup_insert_ne _ "last_datetime" "first_datetime") by discriminate.
  rewrite lookup_insert_eq.
  reflexivity.
Qed.

Lemma coverage_request_times_witness :
  getCoverage_cell
    (layer_name_cell
       (time_cell demo_dimensions (reference_time_cell demo_dimensions ∅).2).2).2
  = inr {| identifier := ["DHPS_1km_RiverDischarge"];
           format := "image/netcdf";
           subsettingcrs := "EPSG:4326";
           subsets := [("lat", 45%Z, 46%Z); ("lon", (-70)%Z, (-69)%Z)];
           DIM_REFERENCE_TIME := "2022-06-21T00:00:00Z";
           TIME := "2022-06-21T01:00:00Z" |}.
Proof.
  eapply (coverage_request_times demo_dimensions ∅); reflexivity.
Defined.

(** X14: when the reference-time cell raises in a namespace where
    newest_fcast is not bound, the coverage cell raises NameError for
    newest_fcast, whatever the time cell did: no request is built with a
    missing bound. *)
Theorem coverage_request_unbound (dims : gmap string dimension)
    (g : gmap string string) (e : Py.exn) :
  (reference_time_cell dims g).1 = inl e ->
  g !! "newest_fcast" = None ->
  getCoverage_cell
    (layer_name_cell (time_cell dims (reference_time_cell dims g).2).2).2
  = inl (NameError "newest_fcast").
Proof.
  intros Hfail Hnone. unfold reference_time_cell in *.
  rewrite (dimension_cell_failure _ _ _ _ _ _ _ Hfail).
  unfold getCoverage_cell, load, layer_name_cell, store. cbn [snd].
  rewrite lookup_insert_eq.
  rewrite (lookup_insert_ne _ "layer_name" "newest_fcast") by discriminate.
  unfold time_cell.
  destruct (dimension_cell_shape "time" "first_datetime" "last_datetime"
              "datetime_interval" dims)
    as [[e' He']|(d' & v' & a' & b' & c' & _ & _ & _ & Hc')].
  - rewrite He'. cbn [snd]. rewrite Hnone. reflexivity.
  - rewrite Hc'. cbn [snd].
    rewrite !lookup_insert_ne by discriminate. rewrite Hnone. reflexivity.
Qed.

Lemma coverage_request_unbound_witness :
  getCoverage_cell
    (layer_name_cell
       (time_cell (delete "reference_time" demo_dimensions)
          (reference_time_cell (delete "reference_time" demo_dimensions) ∅).2).2).2
  = inl (NameError "newest_fcast").
Proof.
  apply (coverage_request_unbound (delete "reference_time" demo_dimensions) ∅
           (Py.KeyError "reference_time")); reflexivity.
Defined.

(** X15: when the reference-time cell raises in a namespace where
    newest_fcast is still bound from an earlier run, and the later cells
    are run all the same, the request carries that earlier value as
    DIM_REFERENCE_TIME next to the fresh start of the time range: the
    failure of the cell does not reach the request. *)
Theorem coverage_request_stale (dims : gmap string dimension)
    (g : gmap string string) (e : Py.exn) (stale : string)
    (d2 : dimension) (a b c : string) :
  (reference_time_cell dims g).1 = inl e ->
  g !! "newest_fcast" = Some stale ->
  dims !! "time" = Some d2 -> resolve (values d2) = inr (a, b, c) ->
  getCoverage_cell
    (layer_name_cell (time_cell dims (reference_time_cell dims g).2).2).2
  = inr {| identifier := ["DHPS_1km_RiverDischarge"];
           format := "image/netcdf";
           subsettingcrs := "EPSG:4326";
           subsets := [("lat", 45%Z, 46%Z); ("lon", (-70)%Z, (-69)%Z)];
           DIM_REFERENCE_TIME := stale;
           TIME := a |}.
Proof.
  intros Hfail Hstale H2 R2. unfold reference_time_cell in *.
  rewrite (dimension_cell_failure _ _ _ _ _ _ _ Hfail).
  unfold time_cell.
  rewrite (dimension_cell_resolved _ _ _ _ _ _ _ _ _ g H2 R2). cbn [snd].
  unfold getCoverage_cell, load, layer_name_cell, store. cbn [snd].
  rewrite lookup_insert_eq.
  rewrite !(lookup_insert_ne _ _ "newest_fcast") by discriminate.
  rewrite Hstale.
  rewrite (lookup_insert_ne _ "layer_name" "first_datetime") by discriminate.
  rewrite (lookup_insert_ne _ "datetime_interval" "first_datetime") by discriminate.
  rewrite (lookup_insert_ne _ "last_datetime" "first_datetime") by discriminate.
  rewrite lookup_insert_eq.
  reflexivity.
Qed.

Lemma coverage_request_stale_witness :
  getCoverage_cell
    (layer_name_cell
       (time_cell (delete "reference_time" demo_dimensions)
          (reference_time_cell (delete "reference_time" demo_dimensions)
             (<["newest_fcast" := "2022-06-20T12:00:00Z"]> ∅)).2).2).2
  = inr {| identifier := ["DHPS_1km_RiverDischarge"];
           format := "image/netcdf";
           subsettingcrs := "EPSG:4326";
           subsets := [("lat", 45%Z, 46%Z); ("lon", (-70)%Z, (-69)%Z)];
           DIM_REFERENCE_TIME := "2022-06-20T12:00:00Z";
           TIME := "2022-06-21T01:00:00Z" |}.
Proof.
  eapply (coverage_request_stale (delete "reference_time" demo_dimensions)
            (<["newest_fcast" := "2022-06-20T12:00:00Z"]> ∅)
            (Py.KeyError "reference_time")); reflexivity.
Defined.
